(** * Sidebar "Manage" menu and support-session header of wp-calypso

  A shallow embedding of
  - [client/my-sites/sidebar/manage-menu.jsx] (the [ManageMenu] component:
    catalog assembly, per-item resolution, ordered output), and
  - [server/support-session/index.js] (the support-session header accessor),
  followed by the properties of the specification that concern them. *)

From Stdlib Require Import ZArith.
From stdpp Require Import base option strings list gmap.

Local Open Scope string_scope.
#[local] Set Warnings "-clear-no-such-hyp".

(** ** The fragment of JavaScript and lodash the component relies on *)
Module Js.

(** A property that may be missing is an [option]; [None] stands for
    [undefined] / [null]. *)

(** Truthiness of a string-or-absent value: the empty string is falsy. *)
Definition truthy_str (v : option string) : bool :=
  match v with
  | Some s => negb (String.eqb s "")
  | None => false
  end.

(** Truthiness of a boolean-or-absent value. *)
Definition truthy_bool (v : option bool) : bool :=
  match v with
  | Some b => b
  | None => false
  end.

(** Truthiness of a number-or-absent value: zero is falsy. *)
Definition truthy_num (v : option Z) : bool :=
  match v with
  | Some n => negb (Z.eqb n 0)
  | None => false
  end.

(** [s + v] where [v] may be [null]. *)
Definition concat_nullable (s : string) (v : option string) : string :=
  s +:+ default "null" v.

(** lodash [compact]: drops the falsy entries of an array. *)
Fixpoint compact (l : list (option string)) : list string :=
  match l with
  | [] => []
  | Some s :: l' => if String.eqb s "" then compact l' else s :: compact l'
  | None :: l' => compact l'
  end.

(** [Array.prototype.join]. *)
Fixpoint join (sep : string) (l : list string) : string :=
  match l with
  | [] => ""
  | [s] => s
  | s :: l' => s +:+ sep +:+ join sep l'
  end.

(** lodash [includes] on an array of strings. *)
Definition includes (l : list string) (s : string) : bool :=
  existsb (String.eqb s) l.

(** lodash [get( object, key )] for a single-key path: the object itself
    may be missing. *)
Definition get (obj : option (gmap string string)) (key : string)
  : option string :=
  obj ≫= (λ o, o !! key).

(** lodash [get( object, key, defaultValue )]: the default replaces an
    [undefined] result. *)
Definition get_default (obj : option (gmap string string)) (key : string)
    (dflt : option string) : option string :=
  match get obj key with
  | Some v => Some v
  | None => dflt
  end.

(** A plain object is kept as the list of its own enumerable entries, in
    enumeration order. *)
Abbreviation object V := (list (string * V)).

(** lodash [omit( object, keys )]. *)
Definition omit {V} (obj : object V) (keys : list string) : object V :=
  filter (λ e, e.1 ∉ keys) obj.

(** lodash [reduce( object, iteratee, accumulator )]; the iteratee takes
    the accumulator, the value and the key. *)
Definition reduce {V M} (obj : object V) (f : M → V → string → M)
    (init : M) : M :=
  fold_left (λ memo e, f memo e.2 e.1) obj init.

End Js.

(** ** [client/my-sites/sidebar/manage-menu.jsx] *)
Module ManageMenu.

(** A content type as delivered by the post-types selector. *)
Record PostType := {
  pt_name : string;
  pt_label : option string;
  pt_labels : option (gmap string string);
  pt_api_queryable : option bool;
  pt_capabilities : option (gmap string string);
  pt_show_ui : option bool;
}.

(** The props of the component ([propTypes], plus [isAtomicSite] and
    [translate], which the methods read as well). *)
Record Props := {
  path : option string;
  siteId : option Z;
  allSingleSites : option bool;
  canCurrentUser : option string → bool;
  isJetpack : option bool;
  isSingleUser : option bool;
  isAtomicSite : option bool;
  postTypes : Js.object PostType;
  getEditorUrl : string → string;
  siteAdminUrl : option string;
  siteSlug : option string;
  calypsoifyGutenberg : option bool;
  translate : string → string;
}.

(** The object literals built by [getDefaultMenuItems], [getPluginItem],
    [getImportItem] and [getCustomMenuItems]. *)
Record MenuItem := {
  name : string;
  label : option string;
  capability : option string;
  queryable : option bool;
  config : option string;
  link : string;
  paths : option (list string);
  buttonLink : option string;
  buttonText : option string;
  forceButtonTargetInternal : option bool;
  wpAdminLink : string;
  showOnAllMySites : bool;
  extraIcon : option string;
  customClassName : option string;
  forceInternalLink : option bool;
}.

(** The button nested in a row. *)
Inductive Button :=
| MediaLibraryUploadButton (href : option string) (text : string)
| SidebarButton (href : option string) (forceTargetInternal : option bool)
    (text : string).

(** The [SidebarItem] element returned by [renderMenuItem] (the click
    handlers carry no data and are left out). *)
Record SidebarItem := {
  si_className : option string;
  si_key : string;
  si_label : option string;
  si_selected : bool;
  si_link : string;
  si_icon : string;
  si_preloadSectionName : string;
  si_postType : option string;
  si_tipTarget : string;
  si_forceInternalLink : option bool;
  si_button : Button;
  si_extraIcon : option (string * string);
}.

Section Component.

(** [config.isEnabled], [decodeEntities] of [lib/formatting] and
    [itemLinkMatches] of [./utils] are imported by the module. *)
Variable config_isEnabled : string → bool.
Variable decodeEntities : option string → option string.
Variable itemLinkMatches : list string + string → option string → bool.

Definition getMyParameter (p : Props) : string :=
  if Js.truthy_num (siteId p) then
    if Js.truthy_bool (isSingleUser p) || Js.truthy_bool (isJetpack p)
    then "" else "/my"
  else
    if Js.truthy_bool (allSingleSites p) then "" else "/my".

Definition getDefaultMenuItems (p : Props) : list MenuItem :=
  [ {| name := "page";
       label := Some (translate p "Site Pages");
       capability := Some "edit_pages";
       queryable := Some true;
       config := Some "manage/pages";
       link := "/pages";
       paths := None;
       buttonLink := Some (getEditorUrl p "page");
       buttonText := None;
       forceButtonTargetInternal := calypsoifyGutenberg p;
       wpAdminLink := "edit.php?post_type=page";
       showOnAllMySites := true;
       extraIcon := None;
       customClassName := None;
       forceInternalLink := None |};
    {| name := "post";
       label := Some (translate p "Blog Posts");
       capability := Some "edit_posts";
       queryable := Some true;
       config := Some "manage/posts";
       link := "/posts" +:+ getMyParameter p;
       paths := Some [ "/posts"; "/posts/my" ];
       buttonLink := Some (getEditorUrl p "post");
       buttonText := None;
       forceButtonTargetInternal := calypsoifyGutenberg p;
       wpAdminLink := "edit.php";
       showOnAllMySites := true;
       extraIcon := None;
       customClassName := None;
       forceInternalLink := None |};
    {| name := "media";
       label := Some (translate p "Media");
       capability := Some "upload_files";
       queryable := Some true;
       config := None;
       link := "/media";
       paths := None;
       buttonLink := Some (Js.concat_nullable "/media/" (siteSlug p));
       buttonText := None;
       forceButtonTargetInternal := None;
       wpAdminLink := "upload.php";
       showOnAllMySites := false;
       extraIcon := None;
       customClassName := None;
       forceInternalLink := None |};
    {| name := "comments";
       label := Some (translate p "Comments");
       capability := Some "edit_posts";
       queryable := Some true;
       config := Some "manage/comments";
       link := "/comments";
       paths := Some [ "/comment"; "/comments" ];
       buttonLink := None;
       buttonText := None;
       forceButtonTargetInternal := None;
       wpAdminLink := "edit-comments.php";
       showOnAllMySites := false;
       extraIcon := None;
       customClassName := None;
       forceInternalLink := None |} ].

Definition getPluginItem (p : Props) : MenuItem :=
  let atomic := Js.truthy_bool (isAtomicSite p) in
  let buttonLink :=
    if Js.truthy_str (siteSlug p)
    then "/plugins/manage/" +:+ default "" (siteSlug p)
    else "/plugins/manage" in
  {| name := "plugins";
     label := Some (translate p "Plugins");
     capability := Some "manage_options";
     queryable := Some (negb atomic);
     config := Some "calypsoify/plugins";
     link := "/plugins";
     paths := Some [ "/extensions"; "/plugins" ];
     buttonLink := Some (if negb atomic then buttonLink else "");
     buttonText := Some (translate p "Manage");
     forceButtonTargetInternal := None;
     wpAdminLink := "plugin-install.php?calypsoify=1";
     showOnAllMySites := true;
     extraIcon := if atomic then Some "chevron-right" else None;
     customClassName := Some (if atomic then "sidebar__plugins-item" else "");
     forceInternalLink := isAtomicSite p |}.

Definition getImportItem (p : Props) : MenuItem :=
  let jetpack := Js.truthy_bool (isJetpack p) in
  {| name := "import";
     label := Some (translate p "Import");
     capability := Some "manage_options";
     queryable := Some (negb jetpack);
     config := Some "manage/import-in-sidebar";
     link := "/settings/import";
     paths := Some [ "/settings/import" ];
     buttonLink := None;
     buttonText := None;
     forceButtonTargetInternal := None;
     wpAdminLink := "import.php";
     showOnAllMySites := false;
     extraIcon := None;
     customClassName := None;
     forceInternalLink := Some (negb jetpack) |}.

(** The preload section of a row. *)
Definition preloadOf (n : string) : string :=
  if Js.includes [ "post"; "page" ] n then "posts-pages"
  else if String.eqb "comments" n then "comments"
  else "posts-custom".

(** The [switch] on the item name choosing the icon. *)
Definition iconOf (n : string) : string :=
  if String.eqb n "post" then "posts"
  else if String.eqb n "page" then "pages"
  else if String.eqb n "import" then "cloud-upload"
  else if String.eqb n "jetpack-portfolio" then "folder"
  else if String.eqb n "jetpack-testimonial" then "quote"
  else if String.eqb n "media" then "image"
  else if String.eqb n "comments" then "chat"
  else if String.eqb n "plugins" then "plugins"
  else "custom-post-type".

(** [! menuItem.config || config.isEnabled( menuItem.config )] *)
Definition isEnabled (menuItem : MenuItem) : bool :=
  negb (Js.truthy_str (config menuItem))
  || match config menuItem with
     | Some c => config_isEnabled c
     | None => false
     end.

(** The [link] computed by [renderMenuItem]. *)
Definition resolveLink (p : Props) (menuItem : MenuItem) : string :=
  if (negb (isEnabled menuItem) || negb (Js.truthy_bool (queryable menuItem)))
     && Js.truthy_str (siteAdminUrl p)
  then default "" (siteAdminUrl p) +:+ wpAdminLink menuItem
  else Js.join "/" (Js.compact [ Some (link menuItem); siteSlug p ]).

(** [renderMenuItem]; [None] is the [null] of a hidden item. *)
Definition renderMenuItem (p : Props) (menuItem : MenuItem)
  : option SidebarItem :=
  if Js.truthy_num (siteId p) && negb (canCurrentUser p (capability menuItem))
  then None
  else if String.eqb "attachment" (name menuItem) then None
  else if negb (Js.truthy_num (siteId p))
          && (negb (isEnabled menuItem) || negb (showOnAllMySites menuItem))
  then None
  else
    Some
      {| si_className := customClassName menuItem;
         si_key := name menuItem;
         si_label := label menuItem;
         si_selected :=
           itemLinkMatches
             match paths menuItem with
             | Some ps => inl ps
             | None => inr (link menuItem)
             end
             (path p);
         si_link := resolveLink p menuItem;
         si_icon := iconOf (name menuItem);
         si_preloadSectionName := preloadOf (name menuItem);
         si_postType :=
           if String.eqb (name menuItem) "plugins" then None
           else Some (name menuItem);
         si_tipTarget := "side-menu-" +:+ name menuItem;
         si_forceInternalLink := forceInternalLink menuItem;
         si_button :=
           if String.eqb (name menuItem) "media"
           then MediaLibraryUploadButton (buttonLink menuItem)
                  (translate p "Add")
           else SidebarButton (buttonLink menuItem)
                  (forceButtonTargetInternal menuItem)
                  (if Js.truthy_str (buttonText menuItem)
                   then default "" (buttonText menuItem)
                   else translate p "Add");
         si_extraIcon :=
           if Js.truthy_str (extraIcon menuItem)
           then Some ("manage_menu__" +:+ name menuItem +:+ "-extra-icon",
                      default "" (extraIcon menuItem))
           else None |}.

(** The object literal concatenated to the accumulator by the iteratee of
    [getCustomMenuItems]. *)
Definition customMenuItem (p : Props) (postType : PostType)
    (postTypeSlug : string) : MenuItem :=
  let buttonLink :=
    if config_isEnabled "manage/custom-post-types"
       && Js.truthy_bool (pt_api_queryable postType)
    then Some (getEditorUrl p postTypeSlug)
    else None in
  {| name := pt_name postType;
     label :=
       decodeEntities
         (Js.get_default (pt_labels postType) "menu_name" (pt_label postType));
     capability := Js.get (pt_capabilities postType) "edit_posts";
     queryable := pt_api_queryable postType;
     config := Some "manage/custom-post-types";
     link := "/types/" +:+ pt_name postType;
     paths := None;
     buttonLink := buttonLink;
     buttonText := None;
     forceButtonTargetInternal := calypsoifyGutenberg p;
     wpAdminLink := "edit.php?post_type=" +:+ pt_name postType;
     showOnAllMySites := false;
     extraIcon := None;
     customClassName := None;
     forceInternalLink := None |}.

Definition getCustomMenuItems (p : Props) : list MenuItem :=
  let customPostTypes := Js.omit (postTypes p) [ "post"; "page"; "wp_block" ] in
  Js.reduce customPostTypes
    (λ memo postType postTypeSlug,
       if bool_decide (pt_show_ui postType = Some false) then memo
       else (memo ++ [ customMenuItem p postType postTypeSlug ])%list)
    [].

(** The [menuItems] array assembled at the start of [render]. *)
Definition menuItems (p : Props) : list MenuItem :=
  let menuItems := (getDefaultMenuItems p ++ getCustomMenuItems p)%list in
  let menuItems :=
    if config_isEnabled "calypsoify/plugins"
    then (menuItems ++ [ getPluginItem p ])%list else menuItems in
  let menuItems :=
    if config_isEnabled "manage/import-in-sidebar"
    then (menuItems ++ [ getImportItem p ])%list else menuItems in
  menuItems.

(** The children of the list returned by [render]:
    [menuItems.map( this.renderMenuItem, this )]. *)
Definition render (p : Props) : list (option SidebarItem) :=
  renderMenuItem p <$> menuItems p.

(** The rows that reach the page: a [null] child renders nothing. *)
Definition renderedRows (p : Props) : list SidebarItem :=
  omap id (render p).

End Component.

End ManageMenu.

(** ** [server/support-session/index.js] *)
Module SupportSession.

(** A request as far as the module touches it: its header store. Both the
    inbound Express request ([request.get]) and the outbound superagent
    request ([request.set]) address a header by name; the name used here is
    a lower-case literal, so their case folding leaves it unchanged. *)
Record Request := { headers : gmap string string }.

Definition request_get (request : Request) (field : string) : option string :=
  headers request !! field.

Definition request_set (request : Request) (field val : string) : Request :=
  {| headers := <[field := val]> (headers request) |}.

Definition getSupportSession (request : Request) : option string :=
  request_get request "x-support-session".

Definition isSupportSession (request : Request) : bool :=
  negb (negb (Js.truthy_str (getSupportSession request))).

Definition setSupportSession (request : Request) (supportSession : string)
  : Request :=
  request_set request "x-support-session" supportSession.

End SupportSession.

(** ** Vocabulary of the specification, in terms of the component *)
Module MenuSpec.
Import ManageMenu.

(** The names the assembly leaves to the built-in items or hides. *)
Definition omitted_slugs : list string := [ "post"; "page"; "wp_block" ].

(** A content-type entry yields a menu item: its slug is not omitted and
    its [show_ui] is not explicitly [false]. *)
Definition shown_in_menu (entry : string * PostType) : Prop :=
  (entry.1 ∉ omitted_slugs) ∧ (pt_show_ui entry.2 ≠ Some false).

#[export] Instance shown_in_menu_dec entry : Decision (shown_in_menu entry).
Proof. unfold shown_in_menu. apply _. Defined.

End MenuSpec.

(** ** Sample inputs used to exercise the definitions *)
Module Fixtures.
Import ManageMenu.

Definition all_flags_on : string → bool := λ _, true.
Definition all_flags_off : string → bool := λ _, false.
Definition posts_flag_off : string → bool :=
  λ flag, negb (String.eqb flag "manage/posts").

(** [decodeEntities] leaves a value without entities as it is. *)
Definition decode_plain : option string → option string := λ text, text.

Definition matches_nothing : list string + string → option string → bool :=
  λ _ _, false.

(** A capability check backed by the list of granted capabilities; a missing
    capability identifier is not granted. *)
Definition granted (caps : list string) : option string → bool :=
  λ capability,
    match capability with
    | Some c => bool_decide (c ∈ caps)
    | None => false
    end.

Definition portfolio : PostType :=
  {| pt_name := "jetpack-portfolio";
     pt_label := Some "Portfolio";
     pt_labels := Some {[ "menu_name" := "Portfolio" ]};
     pt_api_queryable := Some true;
     pt_capabilities := Some {[ "edit_posts" := "edit_posts" ]};
     pt_show_ui := Some true |}.

(** A content type from an older data source: no labels, no capabilities,
    no [show_ui]. *)
Definition legacy_book : PostType :=
  {| pt_name := "book";
     pt_label := None;
     pt_labels := None;
     pt_api_queryable := Some true;
     pt_capabilities := None;
     pt_show_ui := None |}.

Definition hidden_product : PostType :=
  {| pt_name := "product";
     pt_label := Some "Products";
     pt_labels := None;
     pt_api_queryable := Some true;
     pt_capabilities := Some {[ "edit_posts" := "edit_posts" ]};
     pt_show_ui := Some false |}.

(** A plugin-registered content type that happens to be called "comments". *)
Definition comments_type : PostType :=
  {| pt_name := "comments";
     pt_label := Some "Guestbook";
     pt_labels := None;
     pt_api_queryable := Some false;
     pt_capabilities := Some {[ "edit_posts" := "edit_posts" ]};
     pt_show_ui := Some true |}.

Definition blog_post : PostType :=
  {| pt_name := "post";
     pt_label := Some "Posts";
     pt_labels := None;
     pt_api_queryable := Some true;
     pt_capabilities := Some {[ "edit_posts" := "edit_posts" ]};
     pt_show_ui := Some true |}.

(** A multi-user, non-Jetpack site is selected. *)
Definition site_props (types : Js.object PostType) : Props :=
  {| path := Some "/stats/day/example.wordpress.com";
     siteId := Some 2916284%Z;
     allSingleSites := Some false;
     canCurrentUser :=
       granted [ "edit_pages"; "edit_posts"; "upload_files"; "manage_options" ];
     isJetpack := Some false;
     isSingleUser := Some false;
     isAtomicSite := None;
     postTypes := types;
     getEditorUrl := λ t, "/edit/" +:+ t +:+ "/example.wordpress.com";
     siteAdminUrl := Some "https://example.wordpress.com/wp-admin/";
     siteSlug := Some "example.wordpress.com";
     calypsoifyGutenberg := Some false;
     translate := λ s, s |}.

(** No site is selected ("all my sites"). *)
Definition all_sites_props : Props :=
  {| path := Some "/stats/day";
     siteId := None;
     allSingleSites := Some false;
     canCurrentUser := granted [];
     isJetpack := None;
     isSingleUser := None;
     isAtomicSite := None;
     postTypes := [];
     getEditorUrl := λ t, "/edit/" +:+ t;
     siteAdminUrl := None;
     siteSlug := None;
     calypsoifyGutenberg := Some false;
     translate := λ s, s |}.

Definition sample_types : Js.object PostType :=
  [ ("post", blog_post); ("jetpack-portfolio", portfolio);
    ("product", hidden_product); ("book", legacy_book) ].

(** The [i]-th built-in item (page, post, media, comments). *)
Definition builtin (i : nat) (p : Props) : MenuItem :=
  default (getImportItem p) (getDefaultMenuItems p !! i).

(** The posts row of the selected site when [manage/posts] is disabled. *)
Definition posts_row_flag_off : SidebarItem :=
  {| si_className := None;
     si_key := "post";
     si_label := Some "Blog Posts";
     si_selected := false;
     si_link := "https://example.wordpress.com/wp-admin/edit.php";
     si_icon := "posts";
     si_preloadSectionName := "posts-pages";
     si_postType := Some "post";
     si_tipTarget := "side-menu-post";
     si_forceInternalLink := None;
     si_button :=
       SidebarButton (Some "/edit/post/example.wordpress.com") (Some false)
         "Add";
     si_extraIcon := None |}.

(** The same content type once its capabilities are delivered. *)
Definition capable_book : PostType :=
  {| pt_name := "book";
     pt_label := None;
     pt_labels := None;
     pt_api_queryable := Some true;
     pt_capabilities := Some {[ "edit_posts" := "edit_posts" ]};
     pt_show_ui := None |}.

Definition legacy_site : Props := site_props [ ("book", legacy_book) ].

Definition legacy_item : MenuItem :=
  customMenuItem all_flags_on decode_plain legacy_site legacy_book "book".

Definition capable_item : MenuItem :=
  customMenuItem all_flags_on decode_plain legacy_site capable_book "book".

(** A content type without labels under another name. *)
Definition legacy_book_named (n : string) : PostType :=
  {| pt_name := n;
     pt_label := None;
     pt_labels := None;
     pt_api_queryable := Some true;
     pt_capabilities := None;
     pt_show_ui := None |}.

(** An outbound request that already carries other headers, among them a
    stale support session. *)
Definition proxied_request : SupportSession.Request :=
  {| SupportSession.headers :=
       {[ "accept" := "application/json";
          "x-support-session" := "stale-nonce" ]} |}.

(** Membership in a list that is written out. *)
Ltac in_list :=
  repeat first [ apply list_elem_of_here | apply list_elem_of_further ].

End Fixtures.

(** ** The click handlers of [manage-menu.jsx] *)
Module MenuHandlers.

(** What a handler does to the outside, in the order it does it. *)
Inductive Effect :=
| BumpStat (group stat : string)
    (* [analytics.mc.bumpStat( group, stat )] *)
| RecordTracksEvent (event menu_item : string)
    (* [this.props.recordTracksEvent( event, { menu_item } )] *)
| Navigate.
    (* [this.props.onNavigate()] *)

#[export] Instance Effect_eq_dec : EqDecision Effect.
Proof. solve_decision. Defined.

(** [onNavigate( postType )()] *)
Definition onNavigate (postType : string) : list Effect :=
  ((if negb (Js.includes [ "post"; "page" ] postType)
    then [ BumpStat "calypso_publish_menu_click" postType ] else [])
   ++ [ RecordTracksEvent "calypso_mysites_manage_sidebar_item_clicked"
          postType;
        Navigate ])%list.

(** [trackSidebarButtonClick( name )()] *)
Definition trackSidebarButtonClick (name : string) : list Effect :=
  [ RecordTracksEvent "calypso_mysites_manage_sidebar_button_clicked" name ].

End MenuHandlers.

(** ** Further vocabulary and sample inputs *)
Module Scenarios.
Import ManageMenu Fixtures.

(** A row with another link. *)
Definition with_link (row : SidebarItem) (l : string) : SidebarItem :=
  {| si_className := si_className row;
     si_key := si_key row;
     si_label := si_label row;
     si_selected := si_selected row;
     si_link := l;
     si_icon := si_icon row;
     si_preloadSectionName := si_preloadSectionName row;
     si_postType := si_postType row;
     si_tipTarget := si_tipTarget row;
     si_forceInternalLink := si_forceInternalLink row;
     si_button := si_button row;
     si_extraIcon := si_extraIcon row |}.

(** The internal link of an item: its path, then the slug if there is
    one. *)
Definition internalLink (p : Props) (item : MenuItem) : string :=
  if Js.truthy_str (siteSlug p)
  then link item +:+ "/" +:+ default "" (siteSlug p)
  else link item.

(** The href of a row's button. *)
Definition button_href (b : Button) : option string :=
  match b with
  | MediaLibraryUploadButton href _ => href
  | SidebarButton href _ _ => href
  end.



(** An Atomic site is selected. *)
Definition atomic_site : Props :=
  {| path := Some "/plugins/example.blog";
     siteId := Some 77203074%Z;
     allSingleSites := Some false;
     canCurrentUser := granted [ "edit_pages"; "edit_posts"; "manage_options" ];
     isJetpack := Some true;
     isSingleUser := Some true;
     isAtomicSite := Some true;
     postTypes := [ ("jetpack-portfolio", portfolio) ];
     getEditorUrl := λ t, "/edit/" +:+ t +:+ "/example.blog";
     siteAdminUrl := Some "https://example.blog/wp-admin/";
     siteSlug := Some "example.blog";
     calypsoifyGutenberg := Some true;
     translate := λ s, s |}.

(** A content type that the REST API does not expose. *)
Definition private_type : PostType :=
  {| pt_name := "feedback";
     pt_label := Some "Feedback";
     pt_labels := None;
     pt_api_queryable := Some false;
     pt_capabilities := Some {[ "edit_posts" := "edit_pages" ]};
     pt_show_ui := Some true |}.

(** An inbound request of a support session. *)
Definition inbound_request : SupportSession.Request :=
  {| SupportSession.headers :=
       {[ "host" := "wordpress.com";
          "x-support-session" := "nonce-77c1" ]} |}.

(** An inbound request of an ordinary visitor. *)
Definition visitor_request : SupportSession.Request :=
  {| SupportSession.headers := {[ "host" := "wordpress.com" ]} |}.

(** The row rendered for an item on the sample flags (the posts row above
    stands in when the item is hidden). *)
Definition row_of (flags : string → bool) (p : Props) (item : MenuItem)
  : SidebarItem :=
  default posts_row_flag_off
    (renderMenuItem flags matches_nothing p item).

(** Only [calypsoify/plugins] and [manage/import-in-sidebar] are enabled. *)
Definition optional_items_only : string → bool :=
  λ flag, String.eqb flag "calypsoify/plugins"
          || String.eqb flag "manage/import-in-sidebar".

End Scenarios.

(** ** Properties of the menu *)
Module MenuProperties.
Import ManageMenu MenuSpec.

(** *** Strings and arrays *)

Lemma append_nonempty_l (s t : string) : s ≠ "" → s +:+ t ≠ "".
Proof. destruct s; [done | discriminate]. Qed.

Lemma eqb_empty_false (s : string) : String.eqb s "" = false ↔ s ≠ "".
Proof. apply String.eqb_neq. Qed.

Lemma truthy_str_Some (v : option string) :
  Js.truthy_str v = true ↔ ∃ s, v = Some s ∧ s ≠ "".
Proof.
  destruct v as [s|]; simpl.
  - rewrite negb_true_iff, eqb_empty_false. split.
    + intros Hs. by exists s.
    + by intros (s' & [= <-] & Hs).
  - split; [done | by intros (s & [=] & _)].
Qed.

(** Joining a path stem with the slug: the slug is appended after a slash
    when it is there, and skipped otherwise. *)
Lemma join_stem_slug (stem : string) (slug : option string) :
  stem ≠ "" →
  Js.join "/" (Js.compact [ Some stem; slug ]) =
    if Js.truthy_str slug then stem +:+ "/" +:+ default "" slug else stem.
Proof.
  intros Hstem. apply eqb_empty_false in Hstem. simpl. rewrite Hstem.
  destruct slug as [s|]; simpl; [|done].
  by destruct (String.eqb s "").
Qed.

(** Three segments with distinct entries and no entry in common. *)
Lemma NoDup_app_3 {A} (l1 l2 l3 : list A) :
  NoDup l1 → NoDup l3 → NoDup l2 →
  (∀ x, x ∈ l1 → x ∉ l2) → (∀ x, x ∈ l1 → x ∉ l3) →
  (∀ x, x ∈ l2 → x ∉ l3) →
  NoDup (l1 ++ l2 ++ l3)%list.
Proof.
  intros H1 H3 H2 H12 H13 H23. rewrite !NoDup_app. repeat split; try done.
  intros x Hx [?|?]%elem_of_app; [by eapply H12 | by eapply H13].
Qed.

(** *** The iteratee of [getCustomMenuItems] as a filter and a map *)

Section Assembly.

Variable config_isEnabled : string → bool.
Variable decodeEntities : option string → option string.

Abbreviation customMenuItem :=
  (ManageMenu.customMenuItem config_isEnabled decodeEntities).
Abbreviation getCustomMenuItems :=
  (ManageMenu.getCustomMenuItems config_isEnabled decodeEntities).
Abbreviation menuItems :=
  (ManageMenu.menuItems config_isEnabled decodeEntities).

Lemma reduce_show_ui (p : Props) (types : Js.object PostType)
    (memo : list MenuItem) :
  Js.reduce types
    (λ memo postType postTypeSlug,
       if bool_decide (pt_show_ui postType = Some false) then memo
       else (memo ++ [ customMenuItem p postType postTypeSlug ])%list)
    memo
  = (memo ++ ((λ e, customMenuItem p e.2 e.1) <$>
                filter (λ e, pt_show_ui e.2 ≠ Some false) types))%list.
Proof.
  unfold Js.reduce. revert memo.
  induction types as [|e types IH]; intros memo.
  - simpl. by rewrite app_nil_r.
  - rewrite filter_cons. cbn [fold_left]. rewrite IH.
    case_bool_decide as Hui.
    + by rewrite decide_False by (by intros []).
    + rewrite decide_True by done. rewrite fmap_cons. by rewrite <- app_assoc.
Qed.

Lemma getCustomMenuItems_filter_map (p : Props) :
  getCustomMenuItems p =
    (λ e, customMenuItem p e.2 e.1) <$> filter shown_in_menu (postTypes p).
Proof.
  unfold ManageMenu.getCustomMenuItems. rewrite reduce_show_ui. simpl.
  unfold Js.omit. rewrite list_filter_filter. f_equal.
  apply list_filter_iff. intros e. unfold shown_in_menu, omitted_slugs.
  tauto.
Qed.

(** The catalog in segments. *)
Lemma menuItems_segments (p : Props) :
  menuItems p =
    (getDefaultMenuItems p
     ++ ((λ e, customMenuItem p e.2 e.1) <$>
           filter shown_in_menu (postTypes p))
     ++ (if config_isEnabled "calypsoify/plugins"
         then [ getPluginItem p ] else [])
     ++ (if config_isEnabled "manage/import-in-sidebar"
         then [ getImportItem p ] else []))%list.
Proof.
  unfold ManageMenu.menuItems. rewrite getCustomMenuItems_filter_map.
  destruct (config_isEnabled "calypsoify/plugins"),
    (config_isEnabled "manage/import-in-sidebar");
    by rewrite <- ?app_assoc, ?app_nil_r.
Qed.

(** C6. The catalog is the four built-in items (page, post, media,
    comments), then one derived item per content-type entry in the order
    of the supplied object, leaving out the entries registered as [post],
    [page] or [wp_block] and those whose [show_ui] is explicitly [false]
    (a missing [show_ui] keeps the entry), then the plugins item if
    [calypsoify/plugins] is enabled, then the import item if
    [manage/import-in-sidebar] is enabled. *)
Theorem catalog_assembly (p : Props) :
  menuItems p =
    (getDefaultMenuItems p
     ++ ((λ e, customMenuItem p e.2 e.1) <$>
           filter shown_in_menu (postTypes p))
     ++ (if config_isEnabled "calypsoify/plugins"
         then [ getPluginItem p ] else [])
     ++ (if config_isEnabled "manage/import-in-sidebar"
         then [ getImportItem p ] else []))%list
  ∧ name <$> getDefaultMenuItems p = [ "page"; "post"; "media"; "comments" ]
  ∧ name (getPluginItem p) = "plugins"
  ∧ name (getImportItem p) = "import"
  ∧ (∀ slug postType,
       shown_in_menu (slug, postType) ↔
       slug ≠ "post" ∧ slug ≠ "page" ∧ slug ≠ "wp_block"
       ∧ (pt_show_ui postType = None ∨ pt_show_ui postType = Some true)).
Proof.
  split; [apply menuItems_segments|].
  split; [done|]. split; [done|]. split; [done|].
  intros slug postType. unfold shown_in_menu, omitted_slugs. simpl.
  rewrite !not_elem_of_cons.
  destruct (pt_show_ui postType) as [[]|]; split.
  all: try (intros (? & ? & ? & [?|?]); done).
  all: try (intros [(? & ? & ? & ?) ?]; by (repeat split; auto)).
  all: intros (? & ? & ? & ?); repeat split; auto using not_elem_of_nil.
Qed.

(** Without a [menu_name], the label is the entry's [label], decoded. *)
Lemma customMenuItem_label (p : Props) (postType : PostType) (slug : string) :
  label (customMenuItem p postType slug) =
    decodeEntities
      match Js.get (pt_labels postType) "menu_name" with
      | Some menu_name => Some menu_name
      | None => pt_label postType
      end.
Proof. done. Qed.

Lemma customMenuItem_in_catalog (p : Props) (entry : string * PostType) :
  entry ∈ postTypes p → shown_in_menu entry →
  customMenuItem p entry.2 entry.1 ∈ menuItems p.
Proof.
  intros Hin Hshown. rewrite menuItems_segments.
  rewrite !elem_of_app. right; left.
  apply list_elem_of_fmap. exists entry. split; [done|].
  by apply list_elem_of_filter.
Qed.

(** C9, as the component has it. A content-type entry without
    [labels.menu_name] still yields its menu item, and the item's label is
    the entry's own [label] passed through [decodeEntities]; when the entry
    has no [label] either, the item is still produced and its label is
    [decodeEntities( undefined )], not the raw name. *)
Theorem custom_label_fallback (p : Props) (slug : string) (postType : PostType) :
  (slug, postType) ∈ postTypes p →
  shown_in_menu (slug, postType) →
  Js.get (pt_labels postType) "menu_name" = None →
  ∃ item,
    item ∈ menuItems p
    ∧ name item = pt_name postType
    ∧ label item = decodeEntities (pt_label postType)
    ∧ (pt_label postType = None → label item = decodeEntities None).
Proof.
  intros Hin Hshown Hmenu.
  exists (customMenuItem p postType slug). split.
  - by apply (customMenuItem_in_catalog p (slug, postType)).
  - split; [done|]. rewrite customMenuItem_label, Hmenu.
    split; [done | by intros ->].
Qed.

(** The derived names are the slugs when every entry is registered under
    its own name. *)
Lemma custom_names_are_slugs (p : Props) :
  (∀ e, e ∈ postTypes p → pt_name e.2 = e.1) →
  name <$> getCustomMenuItems p = (filter shown_in_menu (postTypes p)).*1.
Proof.
  intros Hkeyed. rewrite getCustomMenuItems_filter_map, <- list_fmap_compose.
  apply list_fmap_ext. intros i e Hi. simpl.
  apply Hkeyed. apply list_elem_of_lookup_2 in Hi.
  by apply list_elem_of_filter in Hi as [_ ?].
Qed.

(** C8, as the component has it. When every content type is registered
    under its own name (and an object has no two equal keys), no derived
    item is named [post], [page] or [wp_block]; the names [media],
    [comments], [plugins] and [import] are not kept apart by the assembly,
    and the names of the catalog are pairwise distinct as soon as no
    content type shown in the menu bears one of these four. *)
Theorem catalog_names_unique (p : Props) :
  (∀ e, e ∈ postTypes p → pt_name e.2 = e.1) →
  NoDup (postTypes p).*1 →
  (∀ item, item ∈ getCustomMenuItems p →
     name item ∉ [ "post"; "page"; "wp_block" ])
  ∧ ((∀ e, e ∈ postTypes p → shown_in_menu e →
        e.1 ∉ [ "media"; "comments"; "plugins"; "import" ]) →
     NoDup (name <$> menuItems p)).
Proof.
  intros Hkeyed Hdup.
  pose proof (custom_names_are_slugs p Hkeyed) as Hnames.
  assert (Hslug : ∀ n, n ∈ name <$> getCustomMenuItems p →
            ∃ e, e ∈ postTypes p ∧ shown_in_menu e ∧ e.1 = n).
  { intros n. rewrite Hnames. intros (e & -> & He)%list_elem_of_fmap.
    apply list_elem_of_filter in He as [? ?]. by exists e. }
  split.
  - intros item Hitem.
    destruct (Hslug (name item)) as (e & _ & [Hom _] & <-); [|done].
    by apply list_elem_of_fmap_2.
  - intros Hfree.
    assert (Hcustom : NoDup (name <$> getCustomMenuItems p)).
    { rewrite Hnames. eapply sublist_NoDup; [exact Hdup|].
      apply fmap_sublist, sublist_filter. }
    assert (Hout : ∀ n, n ∈ name <$> getCustomMenuItems p →
              n ∉ [ "page"; "post"; "media"; "comments"; "plugins"; "import" ]).
    { intros n (e & He & Hshown & <-)%Hslug.
      specialize (Hfree e He Hshown). destruct Hshown as [Hom _].
      unfold omitted_slugs in Hom.
      rewrite !not_elem_of_cons in Hom. rewrite !not_elem_of_cons in Hfree.
      rewrite !not_elem_of_cons. tauto. }
    rewrite menuItems_segments.
    rewrite <- getCustomMenuItems_filter_map, !fmap_app.
    apply NoDup_app_3; [| |done| | |].
    + repeat (apply NoDup_cons_2; [set_solver|]). apply NoDup_nil_2.
    + destruct (config_isEnabled "calypsoify/plugins"),
        (config_isEnabled "manage/import-in-sidebar"); simpl;
        repeat (apply NoDup_cons_2; [set_solver|]); apply NoDup_nil_2.
    + intros n Hn Hc%Hout. set_solver.
    + destruct (config_isEnabled "calypsoify/plugins"),
        (config_isEnabled "manage/import-in-sidebar"); set_solver.
    + intros n Hc%Hout.
      destruct (config_isEnabled "calypsoify/plugins"),
        (config_isEnabled "manage/import-in-sidebar"); set_solver.
Qed.

End Assembly.

(** *** The [/my] suffix of the posts link *)

(** C2, as the component has it. The link of the posts item is [/posts] or
    [/posts/my]; the [/my] suffix is there exactly when a site is selected
    that is neither single-user nor Jetpack, or when no site is selected
    and not all sites are single-user. With a site selected that is
    single-user or Jetpack there is no suffix. *)
Theorem my_suffix_cases (p : Props) (item : MenuItem) :
  item ∈ getDefaultMenuItems p →
  name item = "post" →
  (link item = "/posts" ∨ link item = "/posts/my")
  ∧ (link item = "/posts/my" ↔
       (Js.truthy_num (siteId p) = true
        ∧ Js.truthy_bool (isSingleUser p) = false
        ∧ Js.truthy_bool (isJetpack p) = false)
       ∨ (Js.truthy_num (siteId p) = false
          ∧ Js.truthy_bool (allSingleSites p) = false))
  ∧ (Js.truthy_num (siteId p) = true →
     Js.truthy_bool (isSingleUser p) = true
     ∨ Js.truthy_bool (isJetpack p) = true →
     link item = "/posts").
Proof.
  unfold getDefaultMenuItems. rewrite !elem_of_cons.
  intros [->|[->|[->|[->|Hin]]]] Hname; try done;
    [|by apply elem_of_nil in Hin].
  cbn [link]. unfold getMyParameter.
  destruct (Js.truthy_num (siteId p)), (Js.truthy_bool (isSingleUser p)),
    (Js.truthy_bool (isJetpack p)), (Js.truthy_bool (allSingleSites p));
    clear Hname; vm_compute; intuition congruence.
Qed.

(** *** Resolution of one item and of the whole menu *)

Section Resolution.

Variable config_isEnabled : string → bool.
Variable decodeEntities : option string → option string.
Variable itemLinkMatches : list string + string → option string → bool.

Abbreviation menuItems :=
  (ManageMenu.menuItems config_isEnabled decodeEntities).
Abbreviation isEnabled := (ManageMenu.isEnabled config_isEnabled).
Abbreviation resolveLink := (ManageMenu.resolveLink config_isEnabled).
Abbreviation renderMenuItem :=
  (ManageMenu.renderMenuItem config_isEnabled itemLinkMatches).
Abbreviation render :=
  (ManageMenu.render config_isEnabled decodeEntities itemLinkMatches).
Abbreviation renderedRows :=
  (ManageMenu.renderedRows config_isEnabled decodeEntities itemLinkMatches).

(** Every item of the catalog has a non-empty internal path. *)
Lemma catalog_link_nonempty (p : Props) (item : MenuItem) :
  item ∈ menuItems p → link item ≠ "".
Proof.
  rewrite menuItems_segments.
  rewrite !elem_of_app. intros [Hin|[Hin|[Hin|Hin]]].
  - unfold getDefaultMenuItems in Hin. rewrite !elem_of_cons in Hin.
    destruct Hin as [->|[->|[->|[->|Hin]]]]; try done.
    by apply elem_of_nil in Hin.
  - apply list_elem_of_fmap in Hin as (e & -> & _). done.
  - destruct (config_isEnabled "calypsoify/plugins");
      [by apply list_elem_of_singleton in Hin as -> | by apply elem_of_nil in Hin].
  - destruct (config_isEnabled "manage/import-in-sidebar");
      [by apply list_elem_of_singleton in Hin as -> | by apply elem_of_nil in Hin].
Qed.

(** A visible item carries the link computed by [resolveLink]. *)
Lemma renderMenuItem_link (p : Props) (item : MenuItem) (row : SidebarItem) :
  renderMenuItem p item = Some row →
  si_link row = resolveLink p item ∧ si_key row = name item.
Proof.
  unfold ManageMenu.renderMenuItem.
  destruct (Js.truthy_num (siteId p) && _); [done|].
  destruct (String.eqb "attachment" (name item)); [done|].
  destruct (negb (Js.truthy_num (siteId p)) && _); [done|].
  by intros [= <-].
Qed.

(** C1. For a visible item of the catalog the link is the admin link
    ([siteAdminUrl + wpAdminLink]) exactly in the case where the item's
    feature flag is disabled or the item is not queryable, and an admin URL
    is there; in the other case it is the internal path joined with the
    site slug, the slug being skipped when it is missing or empty. One of
    the two cases always applies, and the link is never empty (in
    particular when a site is selected and an admin URL is there). *)
Theorem link_target_exclusive (p : Props) (item : MenuItem)
    (row : SidebarItem) :
  item ∈ menuItems p →
  renderMenuItem p item = Some row →
  let external :=
    (isEnabled item = false ∨ Js.truthy_bool (queryable item) = false)
    ∧ Js.truthy_str (siteAdminUrl p) = true in
  (external ∨ ¬ external)
  ∧ (external →
       ∃ base, siteAdminUrl p = Some base ∧ base ≠ ""
               ∧ si_link row = base +:+ wpAdminLink item)
  ∧ (¬ external →
       si_link row = Js.join "/" (Js.compact [ Some (link item); siteSlug p ])
       ∧ si_link row =
           if Js.truthy_str (siteSlug p)
           then link item +:+ "/" +:+ default "" (siteSlug p)
           else link item)
  ∧ si_link row ≠ "".
Proof.
  intros Hin [Hlink _]%renderMenuItem_link external.
  pose proof (catalog_link_nonempty p item Hin) as Hstem.
  assert (Hcond :
    (negb (isEnabled item) || negb (Js.truthy_bool (queryable item)))
    && Js.truthy_str (siteAdminUrl p) = true ↔ external).
  { unfold external.
    rewrite andb_true_iff, orb_true_iff, !negb_true_iff. done. }
  assert (Hext : external →
    ∃ base, siteAdminUrl p = Some base ∧ base ≠ ""
            ∧ si_link row = base +:+ wpAdminLink item).
  { intros Hex. pose proof Hex as [_ (base & Hbase & Hne)%truthy_str_Some].
    exists base. repeat split; try done.
    rewrite Hlink. unfold ManageMenu.resolveLink.
    apply Hcond in Hex. rewrite Hex. by rewrite Hbase. }
  assert (Hint : ¬ external →
    si_link row = Js.join "/" (Js.compact [ Some (link item); siteSlug p ])).
  { intros Hnex. rewrite Hlink. unfold ManageMenu.resolveLink.
    destruct (_ && _); [|done]. by destruct Hnex; apply Hcond. }
  assert (Hdec : external ∨ ¬ external).
  { destruct ((negb (isEnabled item)
                || negb (Js.truthy_bool (queryable item)))
               && Js.truthy_str (siteAdminUrl p)) eqn:Hc.
    - left. by apply Hcond.
    - right. intros Hex%Hcond. congruence. }
  split; [exact Hdec|]. split; [exact Hext|]. split.
  - intros Hnex. split; [by apply Hint|].
    rewrite (Hint Hnex). by apply join_stem_slug.
  - destruct Hdec as [Hex|Hnex].
    + destruct (Hext Hex) as (base & _ & Hne & ->).
      by apply append_nonempty_l.
    + rewrite (Hint Hnex), join_stem_slug by done.
      case_match; [by apply append_nonempty_l | done].
Qed.

(** C3, as the component has it. A site is selected, the user may edit
    posts, the site is multi-user and not Jetpack, it has the slug [slug],
    and the posts link stays internal (the [manage/posts] flag is enabled,
    or there is no admin URL): the posts row is shown and links to
    [/posts/my/slug]. *)
Theorem posts_link_multi_user (p : Props) (item : MenuItem) (slug : string) :
  item ∈ getDefaultMenuItems p →
  name item = "post" →
  Js.truthy_num (siteId p) = true →
  canCurrentUser p (Some "edit_posts") = true →
  Js.truthy_bool (isSingleUser p) = false →
  Js.truthy_bool (isJetpack p) = false →
  siteSlug p = Some slug → slug ≠ "" →
  config_isEnabled "manage/posts" = true
  ∨ Js.truthy_str (siteAdminUrl p) = false →
  ∃ row, renderMenuItem p item = Some row
         ∧ si_link row = "/posts/my/" +:+ slug.
Proof.
  unfold getDefaultMenuItems. rewrite !elem_of_cons.
  intros [->|[->|[->|[->|Hin]]]] Hname; try done;
    [|by apply elem_of_nil in Hin].
  intros Hsite Hcan Hsingle Hjetpack Hslug Hne Hinternal.
  unfold ManageMenu.renderMenuItem. cbn [capability name].
  rewrite Hsite, Hcan. simpl. eexists. split; [done|].
  cbn [si_link]. unfold ManageMenu.resolveLink, ManageMenu.isEnabled.
  cbn [config queryable link wpAdminLink]. unfold getMyParameter.
  rewrite Hsite, Hsingle, Hjetpack, Hslug.
  apply eqb_empty_false in Hne.
  destruct Hinternal as [Hflag|Hadmin].
  - rewrite Hflag. simpl. by rewrite Hne.
  - rewrite Hadmin, andb_false_r. simpl. by rewrite Hne.
Qed.

(** C4, as the component has it. With a site selected, an item is omitted
    whenever the capability check, applied to the item's capability as it
    is (a missing capability is handed over as [undefined]), answers no;
    when it answers yes the item is shown unless it is named
    [attachment]. *)
Theorem capability_gate (p : Props) (item : MenuItem) :
  Js.truthy_num (siteId p) = true →
  (canCurrentUser p (capability item) = false →
   renderMenuItem p item = None)
  ∧ (canCurrentUser p (capability item) = true →
     name item ≠ "attachment" →
     is_Some (renderMenuItem p item)).
Proof.
  intros Hsite. unfold ManageMenu.renderMenuItem. rewrite Hsite. split.
  - by intros ->.
  - intros -> Hname%String.eqb_neq. rewrite String.eqb_sym in Hname.
    rewrite Hname. simpl. by eexists.
Qed.

(** C5. An item that opts out of the all-sites view is omitted when no
    site is selected, whatever the capability check and the feature flags
    answer. *)
Theorem hidden_without_site (p : Props) (item : MenuItem) :
  showOnAllMySites item = false →
  Js.truthy_num (siteId p) = false →
  renderMenuItem p item = None.
Proof.
  intros Hshow Hsite. unfold ManageMenu.renderMenuItem.
  rewrite Hsite, Hshow. simpl.
  case_match; [done|]. by rewrite orb_true_r.
Qed.

(** The rows are the visible items, resolved one by one. *)
Lemma renderedRows_omap (p : Props) :
  renderedRows p = omap (renderMenuItem p) (menuItems p).
Proof.
  unfold ManageMenu.renderedRows, ManageMenu.render.
  generalize (menuItems p). intros l.
  induction l as [|item l IH]; [done|].
  rewrite fmap_cons. cbn [omap list_omap] in *.
  destruct (renderMenuItem p item); simpl; by rewrite IH.
Qed.

(** C7. The rendered rows are the catalog with the omitted items removed:
    they pair off, in order, with the visible items of the catalog, each
    row being the resolution of its item; so the keys of the rows are a
    subsequence of the names of the catalog. *)
Theorem rows_follow_catalog (p : Props) :
  Forall2 (λ item row, renderMenuItem p item = Some row)
    (filter (λ item, is_Some (renderMenuItem p item)) (menuItems p))
    (renderedRows p)
  ∧ filter (λ item, is_Some (renderMenuItem p item)) (menuItems p)
      `sublist_of` menuItems p
  ∧ si_key <$> renderedRows p `sublist_of` name <$> menuItems p.
Proof.
  rewrite renderedRows_omap. generalize (menuItems p). intros l.
  split; [|split].
  - induction l as [|item l IH]; [by constructor|].
    rewrite filter_cons. cbn [omap list_omap].
    destruct (renderMenuItem p item) as [row|] eqn:Hrow.
    + rewrite decide_True by by eexists. by constructor.
    + rewrite decide_False by by intros [? ?]. done.
  - apply sublist_filter.
  - induction l as [|item l IH]; [done|].
    rewrite fmap_cons. cbn [omap list_omap].
    destruct (renderMenuItem p item) as [row|] eqn:Hrow.
    + apply renderMenuItem_link in Hrow as [_ <-].
      rewrite fmap_cons. by apply sublist_skip.
    + by apply sublist_cons.
Qed.

End Resolution.

(** *** The properties on the sample inputs *)

Import Fixtures.

Lemma link_target_exclusive_witness :
  builtin 1 (site_props sample_types)
    ∈ ManageMenu.menuItems posts_flag_off decode_plain (site_props sample_types)
  ∧ ManageMenu.renderMenuItem posts_flag_off matches_nothing
      (site_props sample_types) (builtin 1 (site_props sample_types))
    = Some posts_row_flag_off
  ∧ (∃ base, siteAdminUrl (site_props sample_types) = Some base ∧ base ≠ ""
       ∧ si_link posts_row_flag_off
         = base +:+ wpAdminLink (builtin 1 (site_props sample_types)))
  ∧ si_link posts_row_flag_off ≠ "".
Proof.
  assert (Hin : builtin 1 (site_props sample_types)
    ∈ ManageMenu.menuItems posts_flag_off decode_plain
        (site_props sample_types)) by (vm_compute; in_list).
  assert (Hrow : ManageMenu.renderMenuItem posts_flag_off matches_nothing
      (site_props sample_types) (builtin 1 (site_props sample_types))
    = Some posts_row_flag_off) by reflexivity.
  destruct (link_target_exclusive posts_flag_off decode_plain matches_nothing
              _ _ _ Hin Hrow) as (_ & Hext & _ & Hne).
  split; [exact Hin|]. split; [exact Hrow|]. split; [|exact Hne].
  apply Hext. split; [left|]; reflexivity.
Defined.

(** Against C2 as stated: a site is selected, and the posts link carries
    the [/my] suffix. *)
Lemma my_suffix_with_site_selected :
  Js.truthy_num (siteId (site_props [])) = true
  ∧ name (builtin 1 (site_props [])) = "post"
  ∧ link (builtin 1 (site_props [])) = "/posts/my"
  ∧ si_link <$> ManageMenu.renderMenuItem all_flags_on matches_nothing
                  (site_props []) (builtin 1 (site_props []))
    = Some "/posts/my/example.wordpress.com".
Proof. by vm_compute. Qed.

Lemma my_suffix_cases_witness :
  builtin 1 (site_props []) ∈ getDefaultMenuItems (site_props [])
  ∧ name (builtin 1 (site_props [])) = "post"
  ∧ link (builtin 1 (site_props [])) = "/posts/my".
Proof.
  assert (Hin : builtin 1 (site_props []) ∈ getDefaultMenuItems (site_props []))
    by (vm_compute; in_list).
  assert (Hname : name (builtin 1 (site_props [])) = "post") by reflexivity.
  destruct (my_suffix_cases _ _ Hin Hname) as (_ & Hmy & _).
  split; [exact Hin|]. split; [exact Hname|].
  apply Hmy. left. repeat split; reflexivity.
Defined.

(** Against C3 as stated: the scenario holds (site selected, both
    capabilities granted, multi-user, not Jetpack, slug present), but with
    [manage/posts] disabled and an admin URL the posts row links to
    wp-admin. *)
Lemma posts_link_flag_off :
  Js.truthy_num (siteId (site_props [])) = true
  ∧ canCurrentUser (site_props []) (Some "edit_pages") = true
  ∧ canCurrentUser (site_props []) (Some "edit_posts") = true
  ∧ Js.truthy_bool (isSingleUser (site_props [])) = false
  ∧ Js.truthy_bool (isJetpack (site_props [])) = false
  ∧ siteSlug (site_props []) = Some "example.wordpress.com"
  ∧ si_link <$> ManageMenu.renderMenuItem posts_flag_off matches_nothing
                  (site_props []) (builtin 1 (site_props []))
    = Some "https://example.wordpress.com/wp-admin/edit.php"
  ∧ "https://example.wordpress.com/wp-admin/edit.php"
    ≠ "/posts/my/" +:+ "example.wordpress.com".
Proof. by vm_compute. Qed.

Lemma posts_link_multi_user_witness :
  ∃ row,
    ManageMenu.renderMenuItem all_flags_on matches_nothing (site_props [])
      (builtin 1 (site_props [])) = Some row
    ∧ si_link row = "/posts/my/" +:+ "example.wordpress.com".
Proof.
  apply (posts_link_multi_user all_flags_on matches_nothing (site_props [])
           (builtin 1 (site_props [])) "example.wordpress.com").
  - vm_compute. in_list.
  - reflexivity.
  - reflexivity.
  - reflexivity.
  - reflexivity.
  - reflexivity.
  - reflexivity.
  - discriminate.
  - left. reflexivity.
Defined.

(** Against C4 as stated: the item derived from a content type without
    capabilities has no capability, a site is selected, the item is not
    the attachment type, and yet it is omitted; the same item with a
    granted capability is shown. *)
Lemma missing_capability_omits :
  legacy_item ∈ ManageMenu.menuItems all_flags_on decode_plain legacy_site
  ∧ capability legacy_item = None
  ∧ Js.truthy_num (siteId legacy_site) = true
  ∧ name legacy_item ≠ "attachment"
  ∧ ManageMenu.renderMenuItem all_flags_on matches_nothing legacy_site
      legacy_item = None
  ∧ is_Some (ManageMenu.renderMenuItem all_flags_on matches_nothing
               legacy_site capable_item).
Proof.
  split; [vm_compute; in_list|].
  repeat split; done.
Qed.

Lemma capability_gate_witness :
  Js.truthy_num (siteId (site_props [])) = true
  ∧ canCurrentUser (site_props []) (capability (builtin 0 (site_props [])))
    = true
  ∧ is_Some (ManageMenu.renderMenuItem all_flags_on matches_nothing
               (site_props []) (builtin 0 (site_props []))).
Proof.
  split; [reflexivity|]. split; [reflexivity|].
  apply (capability_gate all_flags_on matches_nothing (site_props [])
           (builtin 0 (site_props []))).
  - reflexivity.
  - reflexivity.
  - discriminate.
Defined.

Lemma hidden_without_site_witness :
  showOnAllMySites (builtin 3 all_sites_props) = false
  ∧ Js.truthy_num (siteId all_sites_props) = false
  ∧ ManageMenu.renderMenuItem all_flags_on matches_nothing all_sites_props
      (builtin 3 all_sites_props) = None.
Proof.
  split; [reflexivity|]. split; [reflexivity|].
  apply (hidden_without_site all_flags_on matches_nothing all_sites_props
           (builtin 3 all_sites_props)); reflexivity.
Defined.

(** Against C8 as stated: a content type registered as [comments] yields a
    second catalog entry named [comments]. *)
Lemma custom_name_collides_with_builtin :
  name <$> ManageMenu.menuItems all_flags_off decode_plain
             (site_props [ ("comments", comments_type) ])
  = [ "page"; "post"; "media"; "comments"; "comments" ]
  ∧ ¬ NoDup (name <$> ManageMenu.menuItems all_flags_off decode_plain
                        (site_props [ ("comments", comments_type) ])).
Proof.
  assert (Hnames :
    name <$> ManageMenu.menuItems all_flags_off decode_plain
               (site_props [ ("comments", comments_type) ])
    = [ "page"; "post"; "media"; "comments"; "comments" ]) by reflexivity.
  split; [exact Hnames|]. rewrite Hnames.
  intros Hdup. do 3 apply NoDup_cons_1_2 in Hdup.
  apply NoDup_cons_1_1 in Hdup. apply Hdup. in_list.
Qed.

Lemma sample_types_keyed (e : string * PostType) :
  e ∈ sample_types → pt_name e.2 = e.1.
Proof.
  unfold sample_types. rewrite !elem_of_cons.
  intros [->|[->|[->|[->|He]]]]; try done. by apply elem_of_nil in He.
Qed.

Lemma catalog_names_unique_witness :
  NoDup (sample_types.*1)
  ∧ NoDup (name <$> ManageMenu.menuItems all_flags_on decode_plain
                      (site_props sample_types)).
Proof.
  assert (Hkeys : NoDup (sample_types.*1)).
  { repeat (apply NoDup_cons_2; [vm_compute; set_solver|]). apply NoDup_nil_2. }
  split; [exact Hkeys|].
  apply (catalog_names_unique all_flags_on decode_plain
           (site_props sample_types) sample_types_keyed Hkeys).
  intros e He _. pose proof (sample_types_keyed e He) as Hname.
  unfold site_props, postTypes, sample_types in He.
  rewrite !elem_of_cons in He.
  destruct He as [->|[->|[->|[->|He]]]];
    [ vm_compute; set_solver .. | by apply elem_of_nil in He ].
Defined.

(** Against C9 as stated: whatever [decodeEntities] does, it cannot turn
    the missing label of every content type into that type's raw name; the
    label of an entry without labels is [decodeEntities( undefined )]. *)
Lemma missing_label_is_not_raw_name :
  ¬ ∃ decodeEntities : option string → option string,
      ∀ postType,
        pt_labels postType = None → pt_label postType = None →
        label (ManageMenu.customMenuItem all_flags_on decodeEntities
                 (site_props sample_types) postType (pt_name postType))
        = Some (pt_name postType).
Proof.
  intros (decodeEntities & Hraw).
  pose proof (Hraw legacy_book eq_refl eq_refl) as Hbook.
  pose proof (Hraw (legacy_book_named "film") eq_refl eq_refl) as Hfilm.
  rewrite customMenuItem_label in Hbook, Hfilm.
  simpl in Hbook, Hfilm. congruence.
Qed.

Lemma custom_label_fallback_witness :
  ∃ item,
    item ∈ ManageMenu.menuItems all_flags_on decode_plain
             (site_props sample_types)
    ∧ name item = "book"
    ∧ label item = decode_plain None
    ∧ (pt_label legacy_book = None → label item = decode_plain None).
Proof.
  apply (custom_label_fallback all_flags_on decode_plain
           (site_props sample_types) "book" legacy_book).
  - vm_compute. in_list.
  - split; [vm_compute; set_solver | discriminate].
  - reflexivity.
Defined.

End MenuProperties.

(** ** Properties of the support-session header *)
Module SessionProperties.
Import SupportSession.

(** C10. Setting the support session and reading it back yields the token
    that was set, since both go through the header [x-support-session];
    hence a request on which a non-empty token was set is a support
    session. *)
Theorem support_session_roundtrip (request : Request) (token : string) :
  getSupportSession (setSupportSession request token) = Some token
  ∧ (token ≠ "" → isSupportSession (setSupportSession request token) = true).
Proof.
  assert (Hget : getSupportSession (setSupportSession request token)
                 = Some token).
  { unfold getSupportSession, setSupportSession, request_get, request_set.
    simpl. apply lookup_insert_eq. }
  split; [exact Hget|].
  intros Htoken. unfold isSupportSession. rewrite Hget, negb_involutive.
  apply MenuProperties.truthy_str_Some. by exists token.
Qed.

Lemma support_session_roundtrip_witness :
  "nonce-1f3a" ≠ ""
  ∧ getSupportSession
      (setSupportSession Fixtures.proxied_request "nonce-1f3a")
    = Some "nonce-1f3a"
  ∧ isSupportSession
      (setSupportSession Fixtures.proxied_request "nonce-1f3a") = true.
Proof.
  split; [discriminate|].
  destruct (support_session_roundtrip Fixtures.proxied_request "nonce-1f3a")
    as [Hget Hsession].
  split; [exact Hget|]. apply Hsession. discriminate.
Defined.

End SessionProperties.

(** ** Further properties of the menu *)
Module MenuCoverage.
Import ManageMenu MenuSpec MenuHandlers Scenarios.


Section Rows.

Variable config_isEnabled : string → bool.
Variable decodeEntities : option string → option string.
Variable itemLinkMatches : list string + string → option string → bool.

Abbreviation menuItems :=
  (ManageMenu.menuItems config_isEnabled decodeEntities).
Abbreviation isEnabled := (ManageMenu.isEnabled config_isEnabled).
Abbreviation resolveLink := (ManageMenu.resolveLink config_isEnabled).
Abbreviation customMenuItem :=
  (ManageMenu.customMenuItem config_isEnabled decodeEntities).
Abbreviation renderMenuItem :=
  (ManageMenu.renderMenuItem config_isEnabled itemLinkMatches).
Abbreviation renderedRows :=
  (ManageMenu.renderedRows config_isEnabled decodeEntities itemLinkMatches).



(** With a site selected, an item is rendered exactly when the capability
    check passes and the item is not the attachment type. *)
Lemma site_rendered_iff (p : Props) (item : MenuItem) :
  Js.truthy_num (siteId p) = true →
  is_Some (renderMenuItem p item) ↔
  canCurrentUser p (capability item) = true ∧ name item ≠ "attachment".
Proof.
  intros Hsite. unfold ManageMenu.renderMenuItem. rewrite Hsite.
  destruct (canCurrentUser p (capability item)); cbn [andb negb].
  - destruct (String.eqb_spec "attachment" (name item)) as [Heq|Hne].
    + split; [by intros [? [=]] | intros [_ Hn]; by destruct Hn].
    + split; [done | by eexists].
  - split; [by intros [? [=]] | by intros [[=] _]].
Qed.

(** X2. No row is ever rendered for an item named [attachment], whoever
    asks and whatever the flags are. *)
Theorem attachment_never_rendered (p : Props) :
  "attachment" ∉ si_key <$> renderedRows p.
Proof.
  rewrite MenuProperties.renderedRows_omap.
  intros (row & Hkey & Hrow)%list_elem_of_fmap.
  apply list_elem_of_omap in Hrow as (item & _ & Hrender).
  pose proof (MenuProperties.renderMenuItem_link _ _ _ _ _ Hrender)
    as [_ Hname].
  unfold ManageMenu.renderMenuItem in Hrender.
  destruct (Js.truthy_num (siteId p) && _); [done|].
  destruct (String.eqb_spec "attachment" (name item)) as [Heq|Hne]; [done|].
  congruence.
Qed.

(** X3. With a site selected, the rows are the catalog items whose
    capability the user holds, the attachment type apart, in catalog
    order: the feature flags and [showOnAllMySites] hide nothing. *)
Theorem site_rows (p : Props) :
  Js.truthy_num (siteId p) = true →
  si_key <$> renderedRows p =
    name <$> filter (λ item, canCurrentUser p (capability item) = true
                             ∧ name item ≠ "attachment")
               (menuItems p).
Proof.
  intros Hsite. rewrite MenuProperties.renderedRows_omap.
  generalize (menuItems p). intros l.
  induction l as [|item l IH]; [done|].
  rewrite filter_cons. cbn [omap list_omap].
  pose proof (site_rendered_iff p item Hsite) as Hiff.
  destruct (renderMenuItem p item) as [row|] eqn:Hrender.
  - rewrite decide_True by (apply Hiff; by eexists).
    rewrite !fmap_cons, IH.
    by apply MenuProperties.renderMenuItem_link in Hrender as [_ ->].
  - rewrite decide_False; [done|]. by intros [? [=]]%Hiff.
Qed.

End Rows.

(** X4. With a site selected, the feature flags do not decide whether an
    item is rendered, and they change nothing of the row but its link: the
    row under other flags is the same row with the link those flags
    give. *)
Theorem flags_only_redirect (flags flags' : string → bool)
    (itemLinkMatches : list string + string → option string → bool)
    (p : Props) (item : MenuItem) (row : SidebarItem) :
  Js.truthy_num (siteId p) = true →
  ManageMenu.renderMenuItem flags itemLinkMatches p item = Some row →
  ManageMenu.renderMenuItem flags' itemLinkMatches p item
  = Some (with_link row (ManageMenu.resolveLink flags' p item)).
Proof.
  intros Hsite. unfold ManageMenu.renderMenuItem. rewrite Hsite.
  cbn [andb negb].
  destruct (negb (canCurrentUser p (capability item))); [done|].
  destruct (String.eqb "attachment" (name item)); [done|].
  by intros [= <-].
Qed.

Section Items.

Variable config_isEnabled : string → bool.
Variable decodeEntities : option string → option string.
Variable itemLinkMatches : list string + string → option string → bool.

Abbreviation menuItems' :=
  (ManageMenu.menuItems config_isEnabled decodeEntities).
Abbreviation customMenuItem' :=
  (ManageMenu.customMenuItem config_isEnabled decodeEntities).
Abbreviation renderMenuItem' :=
  (ManageMenu.renderMenuItem config_isEnabled itemLinkMatches).
Abbreviation renderedRows' :=
  (ManageMenu.renderedRows config_isEnabled decodeEntities itemLinkMatches).

(** What a rendered row takes over from its item. *)
Lemma rendered_fields (p : Props) (item : MenuItem) (row : SidebarItem) :
  renderMenuItem' p item = Some row →
  si_key row = name item
  ∧ si_link row = ManageMenu.resolveLink config_isEnabled p item
  ∧ button_href (si_button row) = buttonLink item
  ∧ si_preloadSectionName row = preloadOf (name item)
  ∧ si_icon row = iconOf (name item)
  ∧ si_forceInternalLink row = forceInternalLink item
  ∧ si_postType row
    = (if String.eqb (name item) "plugins" then None else Some (name item))
  ∧ si_extraIcon row
    = (if Js.truthy_str (extraIcon item)
       then Some ("manage_menu__" +:+ name item +:+ "-extra-icon",
                  default "" (extraIcon item))
       else None).
Proof.
  unfold ManageMenu.renderMenuItem.
  destruct (Js.truthy_num (siteId p) && _); [done|].
  destruct (String.eqb "attachment" (name item)); [done|].
  destruct (negb (Js.truthy_num (siteId p)) && _); [done|].
  intros [= <-]. cbn [si_key si_link si_button si_preloadSectionName si_icon
    si_forceInternalLink si_postType si_extraIcon].
  repeat split. by destruct (String.eqb (name item) "media").
Qed.

(** The link computed for an item whose flag is enabled and which is
    queryable, or for which there is no admin URL. *)
Lemma resolveLink_internal (p : Props) (item : MenuItem) :
  link item ≠ "" →
  (ManageMenu.isEnabled config_isEnabled item = true
   ∧ Js.truthy_bool (queryable item) = true)
  ∨ Js.truthy_str (siteAdminUrl p) = false →
  ManageMenu.resolveLink config_isEnabled p item = internalLink p item.
Proof.
  intros Hstem Hint. unfold ManageMenu.resolveLink, internalLink.
  rewrite MenuProperties.join_stem_slug by done.
  destruct Hint as [[-> ->]| ->]; [done|]. by rewrite andb_false_r.
Qed.

(** The link computed for an item whose flag is disabled or which is not
    queryable, when there is an admin URL. *)
Lemma resolveLink_external (p : Props) (item : MenuItem) (base : string) :
  siteAdminUrl p = Some base → base ≠ "" →
  ManageMenu.isEnabled config_isEnabled item = false
  ∨ Js.truthy_bool (queryable item) = false →
  ManageMenu.resolveLink config_isEnabled p item = base +:+ wpAdminLink item.
Proof.
  intros Hbase Hne Hext. unfold ManageMenu.resolveLink.
  assert (Js.truthy_str (siteAdminUrl p) = true) as ->.
  { apply MenuProperties.truthy_str_Some. by exists base. }
  rewrite Hbase. by destruct Hext as [->| ->]; rewrite ?orb_true_r.
Qed.

(** X5. The row of a custom content type has an editor button exactly when
    [manage/custom-post-types] is enabled and the type is queryable through
    the API, and then the row links inside Calypso, to [/types/name]
    followed by the slug; otherwise there is no button href and, given an
    admin URL, the row links to the wp-admin list of that type. *)
Theorem custom_row_button_and_link (p : Props) (postType : PostType)
    (slug : string) (row : SidebarItem) :
  renderMenuItem' p (customMenuItem' p postType slug) = Some row →
  (config_isEnabled "manage/custom-post-types"
   && Js.truthy_bool (pt_api_queryable postType) = true →
     button_href (si_button row) = Some (getEditorUrl p slug)
     ∧ si_link row =
         if Js.truthy_str (siteSlug p)
         then "/types/" +:+ pt_name postType +:+ "/"
                +:+ default "" (siteSlug p)
         else "/types/" +:+ pt_name postType)
  ∧ (config_isEnabled "manage/custom-post-types"
     && Js.truthy_bool (pt_api_queryable postType) = false →
     button_href (si_button row) = None
     ∧ ∀ base, siteAdminUrl p = Some base → base ≠ "" →
         si_link row = base +:+ "edit.php?post_type=" +:+ pt_name postType).
Proof.
  intros (_ & -> & -> & _)%rendered_fields.
  cbn [buttonLink ManageMenu.customMenuItem].
  split; intros Hedit; rewrite Hedit.
  - split; [done|]. apply andb_true_iff in Hedit as [Hflag Hq].
    rewrite resolveLink_internal; [done|done|]. left.
    unfold ManageMenu.isEnabled, ManageMenu.customMenuItem.
    cbn [config queryable]. by rewrite Hflag, Hq.
  - split; [done|]. intros base Hbase Hne.
    rewrite (resolveLink_external _ _ base); [done|done|done|].
    unfold ManageMenu.isEnabled, ManageMenu.customMenuItem.
    cbn [config queryable].
    apply andb_false_iff in Hedit as [->| ->]; auto.
Qed.


(** X7. The import row of the catalog (its flag is then enabled). On a
    Jetpack site with an admin URL it links to wp-admin's [import.php] and
    is not forced internal; on any other site it links to
    [/settings/import] followed by the slug and is forced internal. *)
Theorem import_row (p : Props) (row : SidebarItem) :
  config_isEnabled "manage/import-in-sidebar" = true →
  renderMenuItem' p (getImportItem p) = Some row →
  (Js.truthy_bool (isJetpack p) = true →
     si_forceInternalLink row = Some false
     ∧ ∀ base, siteAdminUrl p = Some base → base ≠ "" →
         si_link row = base +:+ "import.php")
  ∧ (Js.truthy_bool (isJetpack p) = false →
       si_forceInternalLink row = Some true
       ∧ si_link row
         = (if Js.truthy_str (siteSlug p)
            then "/settings/import/" +:+ default "" (siteSlug p)
            else "/settings/import")).
Proof.
  intros Hflag (_ & -> & _ & _ & _ & -> & _)%rendered_fields.
  split; intros Hjetpack.
  - unfold getImportItem at 1. cbn [forceInternalLink]. rewrite Hjetpack.
    split; [done|]. intros base Hbase Hne.
    rewrite (resolveLink_external _ _ base); try done.
    right. unfold getImportItem. cbn [queryable]. by rewrite ?Hjetpack.
  - unfold getImportItem at 1. cbn [forceInternalLink]. rewrite Hjetpack.
    split; [done|]. rewrite resolveLink_internal; [done|done|].
    left. unfold ManageMenu.isEnabled, getImportItem. cbn [config queryable].
    by rewrite Hflag, ?Hjetpack.
Qed.

(** X8. Clicking a row records one Tracks event for the row and then
    calls the parent's [onNavigate]; before that it bumps the publish-menu
    stat exactly for the rows outside the posts-and-pages preload
    section. *)
Theorem navigate_effects (p : Props) (item : MenuItem) (row : SidebarItem) :
  renderMenuItem' p item = Some row →
  onNavigate (name item) =
    ((if String.eqb (si_preloadSectionName row) "posts-pages" then []
      else [ BumpStat "calypso_publish_menu_click" (si_key row) ])
     ++ [ RecordTracksEvent "calypso_mysites_manage_sidebar_item_clicked"
            (si_key row);
          Navigate ])%list.
Proof.
  intros (-> & _ & _ & -> & _)%rendered_fields.
  unfold onNavigate, preloadOf.
  destruct (Js.includes [ "post"; "page" ] (name item)); [done|].
  by destruct (String.eqb "comments" (name item)).
Qed.

(** X13. With a site selected, the row of a custom content type is shown
    exactly when the user holds the capability that the type's capability
    map gives for [edit_posts] (not [edit_posts] itself), the attachment
    type apart. *)
Theorem custom_row_capability (p : Props) (postType : PostType)
    (slug : string) (caps : gmap string string) (cap : string) :
  Js.truthy_num (siteId p) = true →
  pt_capabilities postType = Some caps →
  caps !! "edit_posts" = Some cap →
  pt_name postType ≠ "attachment" →
  is_Some (renderMenuItem' p (customMenuItem' p postType slug))
  ↔ canCurrentUser p (Some cap) = true.
Proof.
  intros Hsite Hcaps Hcap Hname.
  etrans; [by apply site_rendered_iff|].
  unfold ManageMenu.customMenuItem. cbn [capability name].
  unfold Js.get. rewrite Hcaps. simpl. rewrite Hcap. tauto.
Qed.

End Items.

Section Keys.

Variable config_isEnabled : string → bool.
Variable decodeEntities : option string → option string.
Variable itemLinkMatches : list string + string → option string → bool.

(** The keys of the rows follow the names of the items. *)
Lemma keys_sublist_names (p : Props) (l : list MenuItem) :
  si_key <$> omap (ManageMenu.renderMenuItem config_isEnabled itemLinkMatches p) l
  `sublist_of` name <$> l.
Proof.
  induction l as [|item l IH]; [done|].
  rewrite fmap_cons. cbn [omap list_omap].
  destruct (ManageMenu.renderMenuItem _ _ p item) as [row|] eqn:Hrow.
  - apply MenuProperties.renderMenuItem_link in Hrow as [_ <-].
    rewrite fmap_cons. by apply sublist_skip.
  - by apply sublist_cons.
Qed.

(** The names of the catalog are distinct when those of the content types
    are and none of them is taken by a built-in or optional item. *)
Lemma names_distinct (p : Props) :
  (∀ e, e ∈ postTypes p → pt_name e.2 = e.1) →
  NoDup (postTypes p).*1 →
  (∀ e, e ∈ postTypes p → shown_in_menu e →
     e.1 ∉ [ "media"; "comments"; "plugins"; "import" ]) →
  NoDup (name <$> ManageMenu.menuItems config_isEnabled decodeEntities p).
Proof.
  intros Hkeyed Hdup Hfree.
  pose proof (MenuProperties.custom_names_are_slugs config_isEnabled
                decodeEntities p Hkeyed) as Hnames.
  rewrite MenuProperties.getCustomMenuItems_filter_map in Hnames.
  assert (Hout : ∀ n, n ∈ (filter shown_in_menu (postTypes p)).*1 →
            n ∉ [ "page"; "post"; "media"; "comments"; "plugins"; "import" ]).
  { intros n (e & -> & [Hshown He]%list_elem_of_filter)%list_elem_of_fmap.
    specialize (Hfree e He Hshown). destruct Hshown as [Hom _].
    unfold omitted_slugs in Hom.
    rewrite !not_elem_of_cons in Hom. rewrite !not_elem_of_cons in Hfree.
    rewrite !not_elem_of_cons. tauto. }
  rewrite MenuProperties.menuItems_segments, !fmap_app, Hnames.
  apply MenuProperties.NoDup_app_3.
  - repeat (apply NoDup_cons_2; [set_solver|]). apply NoDup_nil_2.
  - destruct (config_isEnabled "calypsoify/plugins"),
      (config_isEnabled "manage/import-in-sidebar"); simpl;
      repeat (apply NoDup_cons_2; [set_solver|]); apply NoDup_nil_2.
  - eapply sublist_NoDup; [exact Hdup|].
    apply fmap_sublist, sublist_filter.
  - intros n Hn Hc%Hout. set_solver.
  - destruct (config_isEnabled "calypsoify/plugins"),
      (config_isEnabled "manage/import-in-sidebar"); set_solver.
  - intros n Hc%Hout.
    destruct (config_isEnabled "calypsoify/plugins"),
      (config_isEnabled "manage/import-in-sidebar"); set_solver.
Qed.

(** X9. The rows carry pairwise distinct keys whenever the content types
    are registered under their own, distinct names and none of those shown
    is called media, comments, plugins or import. *)
Theorem row_keys_unique (p : Props) :
  (∀ e, e ∈ postTypes p → pt_name e.2 = e.1) →
  NoDup (postTypes p).*1 →
  (∀ e, e ∈ postTypes p → shown_in_menu e →
     e.1 ∉ [ "media"; "comments"; "plugins"; "import" ]) →
  NoDup (si_key <$> ManageMenu.renderedRows config_isEnabled decodeEntities
                      itemLinkMatches p).
Proof.
  intros Hkeyed Hdup Hfree. rewrite MenuProperties.renderedRows_omap.
  eapply sublist_NoDup; [by apply names_distinct|].
  apply keys_sublist_names.
Qed.

End Keys.

(** *** The further properties on the sample inputs *)

Import Fixtures.


Lemma site_rows_witness :
  Js.truthy_num (siteId (site_props sample_types)) = true
  ∧ si_key <$> ManageMenu.renderedRows all_flags_off decode_plain
                 matches_nothing (site_props sample_types)
    = name <$> filter (λ item,
                 canCurrentUser (site_props sample_types) (capability item)
                 = true ∧ name item ≠ "attachment")
               (ManageMenu.menuItems all_flags_off decode_plain
                  (site_props sample_types)).
Proof.
  split; [reflexivity|].
  apply (site_rows all_flags_off decode_plain matches_nothing
           (site_props sample_types)).
  reflexivity.
Defined.

Lemma flags_only_redirect_witness :
  ManageMenu.renderMenuItem posts_flag_off matches_nothing (site_props [])
    (builtin 1 (site_props []))
  = Some (with_link (row_of all_flags_on (site_props [])
                       (builtin 1 (site_props [])))
            "https://example.wordpress.com/wp-admin/edit.php").
Proof.
  apply (flags_only_redirect all_flags_on posts_flag_off matches_nothing
           (site_props []) (builtin 1 (site_props []))
           (row_of all_flags_on (site_props []) (builtin 1 (site_props [])))).
  - reflexivity.
  - reflexivity.
Defined.

Lemma custom_row_button_and_link_witness :
  button_href
    (si_button (row_of all_flags_on atomic_site
                  (ManageMenu.customMenuItem all_flags_on decode_plain
                     atomic_site private_type "feedback")))
  = None
  ∧ si_link (row_of all_flags_on atomic_site
               (ManageMenu.customMenuItem all_flags_on decode_plain
                  atomic_site private_type "feedback"))
    = "https://example.blog/wp-admin/" +:+ "edit.php?post_type="
        +:+ "feedback".
Proof.
  destruct (custom_row_button_and_link all_flags_on decode_plain
              matches_nothing atomic_site private_type "feedback"
              (row_of all_flags_on atomic_site
                 (ManageMenu.customMenuItem all_flags_on decode_plain
                    atomic_site private_type "feedback")))
    as [_ Hhidden]; [reflexivity|].
  destruct Hhidden as [Hbutton Hlink]; [reflexivity|].
  split; [exact Hbutton|].
  apply Hlink; [reflexivity | discriminate].
Defined.


Lemma import_row_witness :
  si_forceInternalLink
    (row_of optional_items_only (site_props [])
       (getImportItem (site_props [])))
  = Some true
  ∧ si_link (row_of optional_items_only (site_props [])
               (getImportItem (site_props [])))
    = "/settings/import/example.wordpress.com".
Proof.
  destruct (import_row optional_items_only matches_nothing (site_props [])
              (row_of optional_items_only (site_props [])
                 (getImportItem (site_props []))))
    as [_ Hplain]; [reflexivity | reflexivity |].
  apply Hplain. reflexivity.
Defined.

Lemma navigate_effects_witness :
  onNavigate "jetpack-portfolio" =
    [ BumpStat "calypso_publish_menu_click" "jetpack-portfolio";
      RecordTracksEvent "calypso_mysites_manage_sidebar_item_clicked"
        "jetpack-portfolio";
      Navigate ].
Proof.
  apply (navigate_effects all_flags_on matches_nothing atomic_site
           (ManageMenu.customMenuItem all_flags_on decode_plain atomic_site
              portfolio "jetpack-portfolio")
           (row_of all_flags_on atomic_site
              (ManageMenu.customMenuItem all_flags_on decode_plain
                 atomic_site portfolio "jetpack-portfolio"))).
  reflexivity.
Defined.

Lemma atomic_types_keyed (e : string * PostType) :
  e ∈ postTypes atomic_site → pt_name e.2 = e.1.
Proof.
  unfold atomic_site, postTypes. rewrite !elem_of_cons.
  intros [->|He]; [done | by apply elem_of_nil in He].
Qed.

Lemma row_keys_unique_witness :
  NoDup (si_key <$> ManageMenu.renderedRows all_flags_on decode_plain
                      matches_nothing atomic_site).
Proof.
  apply (row_keys_unique all_flags_on decode_plain matches_nothing
           atomic_site atomic_types_keyed).
  - apply NoDup_singleton.
  - intros e He _. pose proof (atomic_types_keyed e He) as Hname.
    unfold atomic_site, postTypes in He. rewrite !elem_of_cons in He.
    destruct He as [->|He]; [vm_compute; set_solver | by apply elem_of_nil in He].
Defined.

Lemma custom_row_capability_witness :
  is_Some (ManageMenu.renderMenuItem all_flags_on matches_nothing atomic_site
             (ManageMenu.customMenuItem all_flags_on decode_plain atomic_site
                private_type "feedback"))
  ↔ canCurrentUser atomic_site (Some "edit_pages") = true.
Proof.
  apply (custom_row_capability all_flags_on decode_plain matches_nothing
           atomic_site private_type "feedback"
           {[ "edit_posts" := "edit_pages" ]} "edit_pages").
  - reflexivity.
  - reflexivity.
  - reflexivity.
  - discriminate.
Defined.

End MenuCoverage.

(** ** Further properties of the support-session header *)
Module SessionCoverage.
Import SupportSession.

(** X10. A request is a support session exactly when it carries a
    non-empty [x-support-session] header: a missing header and an empty
    one both answer no. *)
Theorem support_session_iff (request : Request) :
  isSupportSession request = true ↔
  ∃ nonce, getSupportSession request = Some nonce ∧ nonce ≠ "".
Proof.
  unfold isSupportSession. rewrite negb_involutive.
  apply MenuProperties.truthy_str_Some.
Qed.

(** X11. Setting the support session touches no other header, and a
    second setting replaces the first. *)
Theorem set_support_session_frame (request : Request) (nonce nonce' : string) :
  (∀ field, field ≠ "x-support-session" →
     request_get (setSupportSession request nonce) field
     = request_get request field)
  ∧ setSupportSession (setSupportSession request nonce) nonce'
    = setSupportSession request nonce'.
Proof.
  unfold setSupportSession, request_set, request_get. simpl. split.
  - intros field Hfield. by apply lookup_insert_ne.
  - by rewrite insert_insert_eq.
Qed.

(** X12. Handing the nonce of an inbound request on to an outbound one
    makes the outbound request carry the same support session, whatever it
    carried before. *)
Theorem support_session_forwarded (inbound outbound : Request)
    (nonce : string) :
  getSupportSession inbound = Some nonce →
  getSupportSession (setSupportSession outbound nonce)
  = getSupportSession inbound
  ∧ isSupportSession (setSupportSession outbound nonce)
    = isSupportSession inbound.
Proof.
  intros Hin.
  assert (Hout : getSupportSession (setSupportSession outbound nonce)
                 = Some nonce).
  { unfold getSupportSession, setSupportSession, request_get, request_set.
    simpl. apply lookup_insert_eq. }
  split; [by rewrite Hout, Hin|].
  unfold isSupportSession. by rewrite Hout, Hin.
Qed.

Lemma support_session_forwarded_witness :
  getSupportSession Scenarios.inbound_request = Some "nonce-77c1"
  ∧ getSupportSession
      (setSupportSession Fixtures.proxied_request "nonce-77c1")
    = getSupportSession Scenarios.inbound_request
  ∧ isSupportSession
      (setSupportSession Fixtures.proxied_request "nonce-77c1")
    = isSupportSession Scenarios.inbound_request.
Proof.
  split; [reflexivity|].
  apply (support_session_forwarded Scenarios.inbound_request
           Fixtures.proxied_request "nonce-77c1").
  reflexivity.
Defined.

Lemma set_support_session_frame_witness :
  "accept" ≠ "x-support-session"
  ∧ request_get (setSupportSession Fixtures.proxied_request "nonce-77c1")
      "accept"
    = Some "application/json"
  ∧ setSupportSession
      (setSupportSession Fixtures.proxied_request "nonce-77c1") "nonce-902b"
    = setSupportSession Fixtures.proxied_request "nonce-902b".
Proof.
  split; [discriminate|].
  destruct (set_support_session_frame Fixtures.proxied_request "nonce-77c1"
              "nonce-902b") as [Hother Hlast].
  split; [|exact Hlast].
  rewrite Hother; [reflexivity | discriminate].
Defined.

End SessionCoverage.
